(** * SiftTracking: a client-side event-tracking adapter

    A shallow embedding of [SiftTracking.js] (class [SiftTracking]) and
    the properties its specification states about it.

    The file has three parts:
    - [JS]: the fragment of the language the adapter relies on (values,
      truthiness, string conversion, property reads, object spread,
      completions);
    - [SiftTracking]: the class, method by method, as state-passing
      functions over the adapter instance and the page it runs in;
    - the properties, grouped by component. *)

From Stdlib Require Import ZArith List String Bool Lia DecimalString.
Import ListNotations.
Open Scope string_scope.
#[local] Set Warnings "-register-all".

(* ===================================================================== *)
(** * The language fragment *)
(* ===================================================================== *)

Module JS.

(** Values that reach the adapter: primitives, arrays, plain objects and
    error objects.

    - [VNum n] is the Number whose value is the integer [n] (identifiers
      and counters), in the range where its string form is the decimal
      numeral.
    - [VObj props] is a plain object inheriting from [Object.prototype];
      [props] are its own enumerable data properties in creation order.
      Values carry data, not methods: a property that would shadow an
      inherited conversion method ([toString], [valueOf]) is not part of
      this universe, and neither are accessors, symbols and functions.
    - [VErr name message] is an error object: [new Error(message)] is
      [VErr "Error" message]; the engine's own [TypeError]s and the
      rejection reasons of [fetch] have other names. *)
Inductive value : Type :=
| VUndefined
| VNull
| VBool (b : bool)
| VNum (n : Z)
| VStr (s : string)
| VArr (elems : list value)
| VObj (props : list (string * value))
| VErr (name message : string).

(** An abrupt or normal end of an evaluation: [throw e] is [Throw e]. *)
Inductive completion (A : Type) : Type :=
| Normal (a : A)
| Throw (e : value).
Arguments Normal {A} a.
Arguments Throw {A} e.

(** ToBoolean. *)
Definition truthy (v : value) : bool :=
  match v with
  | VUndefined | VNull => false
  | VBool b => b
  | VNum n => negb (n =? 0)%Z
  | VStr s => negb (s =? "")
  | VArr _ | VObj _ | VErr _ _ => true
  end.

(** [a || b] for operands without effects. *)
Definition or_ (a b : value) : value := if truthy a then a else b.

(** A parameter default, [f(x = d)]: only [undefined] is replaced. *)
Definition default_param (x d : value) : value :=
  match x with VUndefined => d | _ => x end.

(** [Array.prototype.join] on strings. *)
Fixpoint join (sep : string) (l : list string) : string :=
  match l with
  | [] => ""
  | [x] => x
  | x :: rest => x ++ sep ++ join sep rest
  end.

(** ToString, as a template literal applies it to a substitution.
    Arrays go through [Array.prototype.join], where [undefined] and
    [null] elements print as the empty string; error objects through
    [Error.prototype.toString]. *)
Fixpoint to_string (v : value) : string :=
  match v with
  | VUndefined => "undefined"
  | VNull => "null"
  | VBool true => "true"
  | VBool false => "false"
  | VNum n => NilZero.string_of_int (Z.to_int n)
  | VStr s => s
  | VArr l =>
      join "," (map (fun e => match e with
                              | VUndefined | VNull => ""
                              | _ => to_string e
                              end) l)
  | VObj _ => "[object Object]"
  | VErr name msg =>
      if name =? "" then msg
      else if msg =? "" then name
      else name ++ ": " ++ msg
  end.

(** [Object.prototype.toString.call(v)]: the built-in tag of [v]. *)
Definition Object_prototype_toString (v : value) : string :=
  match v with
  | VUndefined => "[object Undefined]"
  | VNull => "[object Null]"
  | VBool _ => "[object Boolean]"
  | VNum _ => "[object Number]"
  | VStr _ => "[object String]"
  | VArr _ => "[object Array]"
  | VObj _ => "[object Object]"
  | VErr _ _ => "[object Error]"
  end.

(** Own-property lookup in a property list. *)
Fixpoint lookup (k : string) (props : list (string * value)) : option value :=
  match props with
  | [] => None
  | (k', v) :: rest => if k' =? k then Some v else lookup k rest
  end.

(** CreateDataProperty: an existing key keeps its place and takes the
    new value, a new key goes last. (The engine lists array-index keys
    ahead of the others; reads by key, the only reads made here, do not
    observe the order.) *)
Fixpoint set_prop (k : string) (v : value) (props : list (string * value))
  : list (string * value) :=
  match props with
  | [] => [(k, v)]
  | (k', v') :: rest =>
      if k' =? k then (k', v) :: rest else (k', v') :: set_prop k v rest
  end.

(** The own keys of a property list, and the value read under a key. *)
Definition keys (props : list (string * value)) : list string := map fst props.

Definition get_own (k : string) (props : list (string * value)) : value :=
  match lookup k props with Some v => v | None => VUndefined end.

(** The spread [...src] inside an object literal under construction
    (CopyDataProperties): for every own key of [src], in order, the
    value read from [src] is defined on [dst]. *)
Definition copy_props (src dst : list (string * value)) : list (string * value) :=
  fold_left (fun acc k => set_prop k (get_own k src) acc) (keys src) dst.

(** The engine's error for a property read on [undefined] or [null]
    (the message text is the engine's own wording). *)
Definition TypeError_read (v : value) (k : string) : value :=
  VErr "TypeError"
       ("Cannot read properties of " ++ to_string v ++ " (reading '" ++ k ++ "')").

(** [v.k] for the property names the adapter reads ([message], [ok],
    [error_message]): none of them is defined by a built-in prototype
    other than [Error.prototype]. *)
Definition get (v : value) (k : string) : completion value :=
  match v with
  | VUndefined | VNull => Throw (TypeError_read v k)
  | VObj props => Normal (get_own k props)
  | VErr name msg =>
      Normal (if k =? "message" then VStr msg
              else if k =? "name" then VStr name
              else VUndefined)
  | VBool _ | VNum _ | VStr _ | VArr _ => Normal VUndefined
  end.

(** Index keys ["0"], ["1"], ... from [i] on, paired with the elements. *)
Fixpoint indexed {A : Type} (f : A -> value) (i : nat) (l : list A)
  : list (string * value) :=
  match l with
  | [] => []
  | x :: rest => (NilZero.string_of_uint (Nat.to_uint i), f x) :: indexed f (S i) rest
  end.

(** The own enumerable properties a spread copies out of a value: the
    properties of an object, the elements of an array, the characters
    of a string, nothing for the other values. *)
Definition own_props (v : value) : list (string * value) :=
  match v with
  | VObj props => props
  | VArr l => indexed (fun e => e) 0 l
  | VStr s => indexed (fun c => VStr (String c "")) 0 (list_ascii_of_string s)
  | VUndefined | VNull | VBool _ | VNum _ | VErr _ _ => []
  end.

End JS.
Import JS.

(* ===================================================================== *)
(** * The adapter *)
(* ===================================================================== *)

Module SiftTracking.

(** ** The instance and the page around it *)

(** [this.config]. *)
Record configuration : Type := {
  userId : value;
  feid : value;
  snippetKey : value;
  snippetSrc : value;
  apiKey : value;
  apiUrl : value
}.

(** The fields of an adapter instance. *)
Record instance : Type := {
  config : configuration;
  eventData : list (string * value);
  isInitialized : bool;
  snippetLoaded : bool
}.

(** What [_init] reads from the browser's [navigator]. *)
Record navigator : Type := {
  userAgent : string;
  languages : list string;
  language : string
}.

(** How a promise ends. *)
Inductive settlement : Type :=
| Fulfilled (v : value)
| Rejected (reason : value).

(** The injected script element. Its two handlers are the closures of
    [_loadSnippet]; each is recorded by what it does to the loader's
    promise when the browser calls it. *)
Record script : Type := {
  onload : settlement;
  onerror : settlement;
  async : bool;
  script_type : string;
  src : value
}.

(** The second argument of [fetch]. [body] holds the value that
    [JSON.stringify] serializes into the request body. *)
Record request : Type := {
  method : string;
  mode : string;
  headers : list (string * string);
  body : value
}.

(** What the adapter does to the page, in the order it does it. *)
Inductive event : Type :=
| sift_push (command : value)
| head_appendChild (s : script)
| console_log (v : value)
| console_error (v : value)
| fetch (url : value) (init : request).

(** The page: the global command queue [window._sift] ([None] while no
    such global exists) and the record of the adapter's effects. *)
Record page : Type := {
  _sift : option (list value);
  trace : list event
}.

Record state : Type := {
  this : instance;
  window : page
}.

(** A promise the adapter creates: already settled, waiting for the
    load or error event of a script element, or waiting for a fetch. *)
Inductive promise : Type :=
| settled (s : settlement)
| on_script (sc : script)
| on_fetch (url : value) (init : request).

(** The browser's answer to an injected script. *)
Inductive script_event : Type :=
| load
| error.

(** The answer to a fetch: a response, or a rejection whose reason is
    an error object (a [TypeError] or an [AbortError]). *)
Inductive fetch_outcome : Type :=
| responds (response : value)
| fails (name message : string).

(** ** Statements: state and exceptions *)

Definition M (A : Type) : Type := state -> completion A * state.

Definition ret {A : Type} (a : A) : M A := fun st => (Normal a, st).

Definition bind {A B : Type} (m : M A) (f : A -> M B) : M B :=
  fun st =>
    match m st with
    | (Normal a, st') => f a st'
    | (Throw e, st') => (Throw e, st')
    end.

Definition throw {A : Type} (e : value) : M A := fun st => (Throw e, st).

Definition lift {A : Type} (c : completion A) : M A := fun st => (c, st).

(** [try { body } catch (e) { handler }]. *)
Definition try_catch {A : Type} (body : M A) (handler : value -> M A) : M A :=
  fun st =>
    match body st with
    | (Normal a, st') => (Normal a, st')
    | (Throw e, st') => handler e st'
    end.

Declare Scope js_scope.
Delimit Scope js_scope with js.
Notation "x <- m ;; k" := (bind m (fun x => k))
  (at level 61, m at next level, right associativity) : js_scope.
Notation "m ;; k" := (bind m (fun _ => k))
  (at level 61, right associativity) : js_scope.
Open Scope js_scope.

Definition get_this : M instance := fun st => (Normal (this st), st).

Definition modify_this (f : instance -> instance) : M unit :=
  fun st => (Normal tt, {| this := f (this st); window := window st |}).

Definition set_eventData (o : list (string * value)) : M unit :=
  modify_this (fun i =>
    {| config := config i; eventData := o;
       isInitialized := isInitialized i; snippetLoaded := snippetLoaded i |}).

Definition set_isInitialized (b : bool) : M unit :=
  modify_this (fun i =>
    {| config := config i; eventData := eventData i;
       isInitialized := b; snippetLoaded := snippetLoaded i |}).

Definition set_snippetLoaded (b : bool) : M unit :=
  modify_this (fun i =>
    {| config := config i; eventData := eventData i;
       isInitialized := isInitialized i; snippetLoaded := b |}).

(** Appends one effect to the page's record. *)
Definition emit (e : event) : M unit :=
  fun st =>
    (Normal tt,
     {| this := this st;
        window := {| _sift := _sift (window st);
                     trace := (trace (window st) ++ [e])%list |} |}).

(** The commands in [window._sift]; none while the global is absent. *)
Definition queue (w : page) : list value :=
  match _sift w with Some q => q | None => [] end.

(** [window._sift = window._sift || []]. *)
Definition sift_ensure : M unit :=
  fun st =>
    (Normal tt,
     {| this := this st;
        window := {| _sift := Some (queue (window st));
                     trace := trace (window st) |} |}).

(** [_sift.push(command)] on the array [window._sift] refers to. *)
Definition push (command : value) : M unit :=
  fun st =>
    (Normal tt,
     {| this := this st;
        window := {| _sift := Some (queue (window st) ++ [command])%list;
                     trace := (trace (window st) ++ [sift_push command])%list |} |}).

(** [new Error(message)]. *)
Definition Error (message : string) : value := VErr "Error" message.

(** ** Promises *)

(** [new Promise(executor)] for an executor that either throws or
    hands its two callbacks to a script element: a throw inside the
    executor rejects the promise. *)
Definition new_Promise (executor : M script) : M promise :=
  fun st =>
    match executor st with
    | (Normal sc, st') => (Normal (on_script sc), st')
    | (Throw e, st') => (Normal (settled (Rejected e)), st')
    end.

(** [p.then(onFulfilled)], run once [p] has settled as [s]: the
    settlement of the derived promise. A rejection passes through; a
    throw in the handler rejects. *)
Definition promise_then (onFulfilled : value -> M value) (s : settlement)
  : state -> settlement * state :=
  fun st =>
    match s with
    | Fulfilled v =>
        match onFulfilled v st with
        | (Normal r, st') => (Fulfilled r, st')
        | (Throw e, st') => (Rejected e, st')
        end
    | Rejected e => (Rejected e, st)
    end.

(** [p.catch(onRejected)], likewise: a fulfilment passes through. *)
Definition promise_catch (onRejected : value -> M value) (s : settlement)
  : state -> settlement * state :=
  fun st =>
    match s with
    | Fulfilled v => (Fulfilled v, st)
    | Rejected e =>
        match onRejected e st with
        | (Normal r, st') => (Fulfilled r, st')
        | (Throw e', st') => (Rejected e', st')
        end
    end.

(** How a promise of the adapter settles, given what the browser
    answers; [None] while it stays pending. A promise rejected inside
    its executor ignores the later events. *)
Definition script_settlement (p : promise) (answer : option script_event)
  : option settlement :=
  match p with
  | settled s => Some s
  | on_script sc =>
      match answer with
      | Some load => Some (onload sc)
      | Some error => Some (onerror sc)
      | None => None
      end
  | on_fetch _ _ => None
  end.

Definition fetch_settlement (o : fetch_outcome) : settlement :=
  match o with
  | responds r => Fulfilled r
  | fails name message => Rejected (VErr name message)
  end.

(** ** The methods *)

(** [_handleError(error, method)]. The template literal evaluates and
    converts its substitutions from left to right; reading
    [error.message] is the one step that can throw. *)
Definition _handleError (error method : value) : M value :=
  let operation := to_string (or_ method (VStr "General")) in
  message <- lift (get error "message") ;;
  let errorMessage :=
    "SiftTracking::" ++ operation ++ ":Error: "
      ++ to_string (or_ (or_ message error) (VStr "UNKNOWN")) in
  emit (console_error (VStr errorMessage)) ;;
  ret VUndefined.

(** The executor of the promise [_loadSnippet] returns. Its value is
    the script element that now holds [resolve] and [reject]. *)
Definition _loadSnippet_executor : M script :=
  i <- get_this ;;
  let c := config i in
  if negb (truthy (feid c)) || negb (truthy (snippetKey c))
     || negb (truthy (snippetSrc c))
  then throw (Error "invalid config")
  else
    sift_ensure ;;
    push (VArr [VStr "_setAccount"; snippetKey c]) ;;
    push (VArr [VStr "_setUserId"; userId c]) ;;
    push (VArr [VStr "_setSessionId"; feid c]) ;;
    push (VArr [VStr "_trackPageview"]) ;;
    let snippetScript :=
      {| onload := Fulfilled (VStr "SiftTracking::loadSnippet:Success");
         onerror := Rejected (VStr "script fetching failed");
         async := true;
         script_type := "text/javascript";
         src := snippetSrc c |} in
    emit (head_appendChild snippetScript) ;;
    ret snippetScript.

Definition _loadSnippet : M promise := new_Promise _loadSnippet_executor.

(** The event template [_init] builds. *)
Definition template (c : configuration) (nav : navigator) : list (string * value) :=
  [ ("$api_key", apiKey c);
    ("$user_id", userId c);
    ("$session_id", feid c);
    ("$browser",
      VObj [ ("$user_agent", VStr (userAgent nav));
             ("$accept_language", VStr (join "," (languages nav)));
             ("$content_language", VStr (language nav)) ]) ].

(** The two handlers [_init] attaches to the loader's promise. *)
Definition _init_then (message : value) : M value :=
  set_snippetLoaded true ;;
  emit (console_log message) ;;
  ret VUndefined.

Definition _init_catch (error : value) : M value :=
  _handleError error (VStr "loadSnippet").

(** [_init()]. The method itself returns nothing; its value here is
    the loader's promise, to which [.then(_init_then).catch(_init_catch)]
    is attached, so that the later settlement can be followed. *)
Definition _init (nav : navigator) : M promise :=
  i <- get_this ;;
  set_eventData (template (config i) nav) ;;
  set_isInitialized true ;;
  _loadSnippet.

(** What runs once the loader's promise has settled as [s]. *)
Definition _init_settled (s : settlement) : state -> settlement * state :=
  fun st =>
    let (s', st') := promise_then _init_then s st in
    promise_catch _init_catch s' st'.

(** [new SiftTracking(userId, feid, network)] in a page [w]. The new
    instance is [this] of the resulting state; the value is the promise
    of [_init]. *)
Definition constructor (userId feid network : value) (nav : navigator) (w : page)
  : completion promise * state :=
  let userId := default_param userId VNull in
  let feid := default_param feid (VStr "") in
  let network := default_param network (VStr "default") in
  let this0 :=
    {| config :=
         {| userId := if truthy userId
                      then VStr (to_string network ++ ":" ++ to_string userId)
                      else VNull;
            feid := feid;
            snippetKey := VStr "SNIPPET_KEY";
            snippetSrc := VStr "https://cdn.sift.com/s.js";
            apiKey := VStr "API_KEY";
            apiUrl := VStr "https://api.sift.com/v205/events" |};
       eventData := [];
       isInitialized := false;
       snippetLoaded := false |} in
  _init nav {| this := this0; window := w |}.

(** [_apiPostData(url, data)]: the promise settles as the fetch does. *)
Definition _apiPostData (url data : value) : M promise :=
  let url := default_param url (VStr "") in
  let data := default_param data (VObj []) in
  let init :=
    {| method := "POST";
       mode := "no-cors";
       headers := [ ("Content-Type", "application/json");
                    ("Accept", "application/json") ];
       body := data |} in
  emit (fetch url init) ;;
  ret (on_fetch url init).

(** The two handlers [_apiSendEvent] attaches to the request. *)
Definition _apiSendEvent_then (type response : value) : M value :=
  ok <- lift (get response "ok") ;;
  if truthy ok
  then
    emit (console_log (VStr ("SiftTracking::sendEvent:Success: " ++ to_string type))) ;;
    ret VUndefined
  else
    error_message <- lift (get response "error_message") ;;
    throw (Error (to_string type ++ " "
                    ++ to_string (or_ error_message (VStr "invalid response")))).

Definition _apiSendEvent_catch (error : value) : M value :=
  _handleError error (VStr "sendEvent").

(** [_apiSendEvent(type, data)]. Its value is the request's promise, to
    which the two handlers above are attached. *)
Definition _apiSendEvent (type data : value) : M promise :=
  i <- get_this ;;
  if negb (isInitialized i) then throw (Error "instance is not initialized")
  else if negb (truthy type) then throw (Error "invalid event type")
  else if negb (Object_prototype_toString data =? "[object Object]")
  then throw (Error "invalid custom data")
  else
    let c := config i in
    if negb (truthy (apiKey c)) || negb (truthy (apiUrl c))
    then throw (Error "invalid API config")
    else
      let eventData :=
        copy_props (own_props data)
          (copy_props (eventData i) (set_prop "$type" type [])) in
      _apiPostData (apiUrl c) (VObj eventData).

(** What runs once the request of a send of [type] has settled as [s]. *)
Definition _apiSendEvent_settled (type : value) (s : settlement)
  : state -> settlement * state :=
  fun st =>
    let (s', st') := promise_then (_apiSendEvent_then type) s st in
    promise_catch _apiSendEvent_catch s' st'.

(** [sendEvent(type, data)]. *)
Definition sendEvent (type data : value) : M value :=
  let data := default_param data (VObj []) in
  try_catch
    (_apiSendEvent type data ;; ret VUndefined)
    (fun e => _handleError e (VStr "sendEvent")) ;;
  ret VUndefined.

(** The two statements that end the file: the page's bootstrap. *)
Definition bootstrap (nav : navigator) (w : page) : completion value * state :=
  match constructor (VStr "userId") (VStr "gl.getFEID()") (VStr "network_name") nav w with
  | (Normal _, st) =>
      sendEvent (VStr "$create_account") (VObj [("custom", VStr "var_value")]) st
  | (Throw e, st) => (Throw e, st)
  end.

End SiftTracking.
Import SiftTracking.

(* ===================================================================== *)
(** * Vocabulary of the properties *)
(* ===================================================================== *)

(** The state [st] after one more effect [e] on the page. *)
Definition logged (st : state) (e : event) : state :=
  {| this := this st;
     window := {| _sift := _sift (window st);
                  trace := (trace (window st) ++ [e])%list |} |}.

(** The line the error normalizer prints for an operation and a message. *)
Definition normalized (operation message : string) : event :=
  console_error (VStr ("SiftTracking::" ++ operation ++ ":Error: " ++ message)).

(** The request options of every POST the adapter issues. *)
Definition json_post (data : value) : request :=
  {| method := "POST";
     mode := "no-cors";
     headers := [ ("Content-Type", "application/json");
                  ("Accept", "application/json") ];
     body := data |}.

(** The requests among the effects. *)
Fixpoint requests (l : list event) : list (value * request) :=
  match l with
  | [] => []
  | fetch url init :: rest => (url, init) :: requests rest
  | _ :: rest => requests rest
  end.

(** The specification's reading of the shape check: a plain key/value
    mapping, as opposed to an array, a primitive or any other object. *)
Definition is_plain_mapping (data : value) : bool :=
  match data with
  | VObj _ => true
  | _ => false
  end.

(** The send gate in the specification's words: four checks, in this
    order, each with its own condition. The text of a condition is the
    message of the error the code raises for it. *)
Definition first_violation (st : state) (type data : value) : option string :=
  if negb (isInitialized (this st)) then Some "instance is not initialized"
  else if negb (truthy type) then Some "invalid event type"
  else if negb (is_plain_mapping data) then Some "invalid custom data"
  else if negb (truthy (apiKey (config (this st)))
                && truthy (apiUrl (config (this st))))
  then Some "invalid API config"
  else None.

(** A call that is turned down with a condition: it ends normally, its
    one effect is the normalized line tagged [sendEvent], and the
    requests on the page are those there were. *)
Definition rejects (type data : value) (st : state) (message : string) : Prop :=
  sendEvent type data st
  = (Normal VUndefined, logged st (normalized "sendEvent" message))
  /\ requests (trace (window (snd (sendEvent type data st))))
     = requests (trace (window st)).

(** The specification's merge, read key by key: the caller's data
    first, then the template, then the type tag. *)
Definition merged (type : value) (template data : list (string * value))
  (k : string) : option value :=
  match lookup k data with
  | Some v => Some v
  | None =>
      match lookup k template with
      | Some v => Some v
      | None => if k =? "$type" then Some type else None
      end
  end.

(** An action that touches neither the instance nor the queue: all it
    may do is add to the record of effects. *)
Definition only_logs (st st' : state) : Prop :=
  this st' = this st /\ _sift (window st') = _sift (window st).

(** The loader's preconditions. *)
Definition loader_ready (c : configuration) : bool :=
  truthy (feid c) && truthy (snippetKey c) && truthy (snippetSrc c).

(** The four commands of the snippet protocol, in order. *)
Definition snippet_commands (c : configuration) : list value :=
  [ VArr [VStr "_setAccount"; snippetKey c];
    VArr [VStr "_setUserId"; userId c];
    VArr [VStr "_setSessionId"; feid c];
    VArr [VStr "_trackPageview"] ].

(** The script element the loader injects. *)
Definition snippet_script (c : configuration) : script :=
  {| onload := Fulfilled (VStr "SiftTracking::loadSnippet:Success");
     onerror := Rejected (VStr "script fetching failed");
     async := true;
     script_type := "text/javascript";
     src := snippetSrc c |}.

(** The object literal of [_apiSendEvent]: the type tag, then the
    spread of the template, then the spread of the caller's data. *)
Definition payload_of (st : state) (type data : value) : list (string * value) :=
  copy_props (own_props data)
    (copy_props (eventData (this st)) (set_prop "$type" type [])).

(** One action of the adapter on the state: a method call, or the run
    of the handlers of a settled promise. *)
Inductive adapter_step : state -> state -> Prop :=
| step_constructor userId feid network nav st :
    adapter_step st (snd (constructor userId feid network nav (window st)))
| step_init nav st :
    adapter_step st (snd (_init nav st))
| step_loadSnippet st :
    adapter_step st (snd (_loadSnippet st))
| step_init_settled s st :
    adapter_step st (snd (_init_settled s st))
| step_sendEvent type data st :
    adapter_step st (snd (sendEvent type data st))
| step_apiSendEvent type data st :
    adapter_step st (snd (_apiSendEvent type data st))
| step_apiPostData url data st :
    adapter_step st (snd (_apiPostData url data st))
| step_apiSendEvent_settled type s st :
    adapter_step st (snd (_apiSendEvent_settled type s st))
| step_handleError error method st :
    adapter_step st (snd (_handleError error method st)).

(** Any number of actions, one after the other. *)
Inductive adapter_steps : state -> state -> Prop :=
| steps_done st : adapter_steps st st
| steps_next st1 st2 st3 :
    adapter_step st1 st2 -> adapter_steps st2 st3 -> adapter_steps st1 st3.

(** The actions of sending: calls of [sendEvent] and the handlers of
    its requests. *)
Inductive send_step : state -> state -> Prop :=
| send_call type data st :
    send_step st (snd (sendEvent type data st))
| send_settled type o st :
    send_step st (snd (_apiSendEvent_settled type (fetch_settlement o) st)).

Inductive send_steps : state -> state -> Prop :=
| sends_done st : send_steps st st
| sends_next st1 st2 st3 :
    send_step st1 st2 -> send_steps st2 st3 -> send_steps st1 st3.

(** The four constants the constructor writes into a configuration. *)
Definition has_constants (c : configuration) : Prop :=
  snippetKey c = VStr "SNIPPET_KEY"
  /\ snippetSrc c = VStr "https://cdn.sift.com/s.js"
  /\ apiKey c = VStr "API_KEY"
  /\ apiUrl c = VStr "https://api.sift.com/v205/events".

(** What construction establishes: the flag is set, the configuration
    holds the constants, and the template is the one [_init] builds
    from that configuration in some browser. *)
Definition built (st : state) : Prop :=
  isInitialized (this st) = true
  /\ has_constants (config (this st))
  /\ exists nav, eventData (this st) = template (config (this st)) nav.

(** The state with the field [snippetLoaded] set to [b]. *)
Definition with_snippetLoaded (b : bool) (st : state) : state :=
  {| this := {| config := config (this st);
                eventData := eventData (this st);
                isInitialized := isInitialized (this st);
                snippetLoaded := b |};
     window := window st |}.


(** What a page can make the adapter do: construct it, call its one
    public method, and answer its promises. *)
Inductive public_step : state -> state -> Prop :=
| public_constructor userId feid network nav st :
    public_step st (snd (constructor userId feid network nav (window st)))
| public_sendEvent type data st :
    public_step st (snd (sendEvent type data st))
| public_init_settled s st :
    public_step st (snd (_init_settled s st))
| public_send_settled type s st :
    public_step st (snd (_apiSendEvent_settled type s st)).

Inductive public_steps : state -> state -> Prop :=
| public_done st : public_steps st st
| public_next st1 st2 st3 :
    public_step st1 st2 -> public_steps st2 st3 -> public_steps st1 st3.

(** A request as the adapter means to issue it: a JSON POST to the
    collection endpoint whose body is a plain object with a type tag. *)
Definition well_formed_request (r : value * request) : Prop :=
  fst r = VStr "https://api.sift.com/v205/events"
  /\ exists payload,
       snd r = json_post (VObj payload) /\ lookup "$type" payload <> None.

(** The effects an action adds, when none of them is a request. *)
Definition adds_no_request (st st' : state) : Prop :=
  exists added,
    trace (window st') = (trace (window st) ++ added)%list /\ requests added = [].

(** The effects an action adds, when every request among them is well
    formed. *)
Definition adds_well_formed (st st' : state) : Prop :=
  exists added,
    trace (window st') = (trace (window st) ++ added)%list
    /\ Forall well_formed_request (requests added).

(** A browser, an empty page and the adapter of the bootstrap, for the
    worked instances below. *)
Definition nav0 : navigator :=
  {| userAgent := "Mozilla/5.0"; languages := ["en-US"; "en"]; language := "en-US" |}.

Definition page0 : page := {| _sift := None; trace := [] |}.

Definition st0 : state :=
  snd (constructor (VStr "userId") (VStr "gl.getFEID()") (VStr "network_name") nav0 page0).

(** An instance on which [_init] has not run and whose configuration
    is empty. *)
Definition raw : state :=
  {| this :=
       {| config := {| userId := VNull; feid := VStr ""; snippetKey := VUndefined;
                       snippetSrc := VUndefined; apiKey := VUndefined;
                       apiUrl := VUndefined |};
          eventData := [];
          isInitialized := false;
          snippetLoaded := false |};
     window := page0 |}.

(* ===================================================================== *)
(** * Worked runs *)
(* ===================================================================== *)

(** The bootstrap on an empty page: the queue receives the four
    commands, the script is injected, and the example event is posted
    with the template and the custom field. *)
Example bootstrap_run :
  bootstrap nav0 page0
  = (Normal VUndefined,
     {| this := this st0;
        window :=
          {| _sift :=
               Some [ VArr [VStr "_setAccount"; VStr "SNIPPET_KEY"];
                      VArr [VStr "_setUserId"; VStr "network_name:userId"];
                      VArr [VStr "_setSessionId"; VStr "gl.getFEID()"];
                      VArr [VStr "_trackPageview"] ];
             trace :=
               [ sift_push (VArr [VStr "_setAccount"; VStr "SNIPPET_KEY"]);
                 sift_push (VArr [VStr "_setUserId"; VStr "network_name:userId"]);
                 sift_push (VArr [VStr "_setSessionId"; VStr "gl.getFEID()"]);
                 sift_push (VArr [VStr "_trackPageview"]);
                 head_appendChild (snippet_script (config (this st0)));
                 fetch (VStr "https://api.sift.com/v205/events")
                   (json_post
                      (VObj [ ("$type", VStr "$create_account");
                              ("$api_key", VStr "API_KEY");
                              ("$user_id", VStr "network_name:userId");
                              ("$session_id", VStr "gl.getFEID()");
                              ("$browser",
                                VObj [ ("$user_agent", VStr "Mozilla/5.0");
                                       ("$accept_language", VStr "en-US,en");
                                       ("$content_language", VStr "en-US") ]);
                              ("custom", VStr "var_value") ])) ] |} |}).
Proof. reflexivity. Qed.

(** The script fails to load: one line, and the adapter stays ready. *)
Example script_error_run :
  _init_settled (Rejected (VStr "script fetching failed")) st0
  = (Fulfilled VUndefined,
     logged st0 (console_error
                   (VStr "SiftTracking::loadSnippet:Error: script fetching failed"))).
Proof. reflexivity. Qed.

(** An opaque response is not ok: the send is reported as failed. *)
Example opaque_response_run :
  _apiSendEvent_settled (VStr "$login")
    (fetch_settlement (responds (VObj [("ok", VBool false)]))) st0
  = (Fulfilled VUndefined,
     logged st0 (console_error
                   (VStr "SiftTracking::sendEvent:Error: $login invalid response"))).
Proof. reflexivity. Qed.

Example to_string_samples :
  to_string (VArr [VNum 12; VNull; VStr "a"; VArr [VNum (-3); VBool true]])
  = "12,,a,-3,true"
  /\ to_string (Error "boom") = "Error: boom"
  /\ to_string (VErr "TypeError" "") = "TypeError"
  /\ to_string (VObj [("a", VNum 1)]) = "[object Object]".
Proof. repeat split. Qed.

(* ===================================================================== *)
(** * Objects *)
(* ===================================================================== *)

Section Objects.

Implicit Types (k : string) (v : value) (o : list (string * value)).

Lemma lookup_set_prop_same k v o : lookup k (set_prop k v o) = Some v.
Proof.
  induction o as [|[k' v'] o IH]; simpl.
  - now rewrite String.eqb_refl.
  - destruct (k' =? k) eqn:E; simpl; rewrite E; auto.
Qed.

Lemma lookup_set_prop_other k k' v o :
  k <> k' -> lookup k' (set_prop k v o) = lookup k' o.
Proof.
  intros Hne. induction o as [|[k1 v1] o IH]; simpl.
  - destruct (k =? k') eqn:E; auto. apply String.eqb_eq in E. contradiction.
  - destruct (k1 =? k) eqn:E; simpl.
    + apply String.eqb_eq in E. subst k1.
      destruct (k =? k') eqn:E'; auto. apply String.eqb_eq in E'. contradiction.
    + now rewrite IH.
Qed.

Lemma lookup_In_keys k o : lookup k o = None <-> ~ In k (keys o).
Proof.
  induction o as [|[k1 v1] o IH]; simpl.
  - tauto.
  - destruct (k1 =? k) eqn:E.
    + apply String.eqb_eq in E. split; [discriminate | intros H; exfalso; auto].
    + apply String.eqb_neq in E. rewrite IH. tauto.
Qed.

(** Defining the values read from [src] under a list of keys. *)
Lemma lookup_fold_set_prop k src (ks : list string) o :
  lookup k (fold_left (fun acc k' => set_prop k' (get_own k' src) acc) ks o)
  = if in_dec string_dec k ks then Some (get_own k src) else lookup k o.
Proof.
  revert o. induction ks as [|k1 ks IH]; intros o; simpl.
  - reflexivity.
  - rewrite IH. destruct (in_dec string_dec k ks) as [Hin|Hnin].
    + destruct (string_dec k1 k); [|destruct (in_dec string_dec k ks)]; tauto.
    + destruct (string_dec k1 k) as [->|Hne].
      * apply lookup_set_prop_same.
      * now apply lookup_set_prop_other.
Qed.

(** Spread is last-write-wins: a key of [src] takes the value of
    [src], every other key keeps the value of [dst]. *)
Lemma lookup_copy_props k src dst :
  lookup k (copy_props src dst)
  = match lookup k src with Some v => Some v | None => lookup k dst end.
Proof.
  unfold copy_props. rewrite lookup_fold_set_prop.
  destruct (in_dec string_dec k (keys src)) as [Hin|Hnin].
  - unfold get_own. destruct (lookup k src) eqn:E; auto.
    apply lookup_In_keys in E. contradiction.
  - apply lookup_In_keys in Hnin. now rewrite Hnin.
Qed.

End Objects.

(* ===================================================================== *)
(** * The send gate and the event composer *)
(* ===================================================================== *)

(** Unfolds the sequencing of statements. *)
Ltac run :=
  cbv beta iota zeta delta
    [bind ret throw lift try_catch get_this modify_this emit
     set_eventData set_isInitialized set_snippetLoaded sift_ensure push
     new_Promise promise_then promise_catch].

Section SendGate.

Implicit Types (type data : value) (st : state).

Lemma default_param_truthy v d : truthy v = true -> default_param v d = v.
Proof. destruct v; simpl; auto; discriminate. Qed.

(** A call of [sendEvent], computed: the first violated check decides
    the one line that is printed; without a violation the composed
    payload is posted. *)
Lemma sendEvent_run type data st :
  sendEvent type data st =
  let data' := default_param data (VObj []) in
  match first_violation st type data' with
  | Some message => (Normal VUndefined, logged st (normalized "sendEvent" message))
  | None =>
      (Normal VUndefined,
       logged st (fetch (apiUrl (config (this st)))
                        (json_post (VObj (payload_of st type data')))))
  end.
Proof.
  unfold sendEvent. cbv zeta.
  generalize (default_param data (VObj [])) as d. intros d.
  unfold first_violation, _apiSendEvent, _apiPostData. run.
  destruct (isInitialized (this st)); simpl; [|reflexivity].
  destruct (truthy type); simpl; [|reflexivity].
  destruct d; simpl; try reflexivity.
  destruct (truthy (apiKey (config (this st)))); simpl; [|reflexivity].
  destruct (truthy (apiUrl (config (this st)))) eqn:Hurl; simpl; [|reflexivity].
  unfold logged, json_post, payload_of.
  rewrite (default_param_truthy _ _ Hurl). reflexivity.
Qed.

Lemma first_violation_plain type data st :
  first_violation st type data = None -> default_param data (VObj []) = data.
Proof.
  unfold first_violation.
  destruct (isInitialized (this st)); simpl; [|discriminate].
  destruct (truthy type); simpl; [|discriminate].
  destruct data; simpl; try discriminate. reflexivity.
Qed.

(** Key by key, the composed payload is the merge. *)
Lemma lookup_payload_of type data st k :
  lookup k (payload_of st type data)
  = merged type (eventData (this st)) (own_props data) k.
Proof.
  unfold payload_of, merged. rewrite !lookup_copy_props.
  destruct (lookup k (own_props data)); auto.
  destruct (lookup k (eventData (this st))); auto.
  change (set_prop "$type" type []) with [("$type", type)].
  unfold lookup. rewrite String.eqb_sym. reflexivity.
Qed.

(** A call that passes the gate posts the composed payload. *)
Lemma sendEvent_valid type data st :
  first_violation st type data = None ->
  sendEvent type data st =
  (Normal VUndefined,
   logged st (fetch (apiUrl (config (this st)))
                    (json_post (VObj (payload_of st type data))))).
Proof.
  intros H. rewrite sendEvent_run. cbv zeta.
  rewrite (first_violation_plain _ _ _ H), H. reflexivity.
Qed.

Lemma requests_app l1 l2 : requests (l1 ++ l2) = (requests l1 ++ requests l2)%list.
Proof.
  induction l1 as [|e l1 IH]; simpl; auto.
  destruct e; simpl; rewrite IH; reflexivity.
Qed.

(** C1. Every call [sendEvent(type, data)] applies the four checks in
    this order, to the [data] the method received (an omitted argument
    is the empty mapping by then): the adapter is initialized; the type
    is truthy; the data is a plain key/value mapping; the configuration
    carries an API key and an API URL. A check decides only when the
    checks before it pass. When it fails, the call ends normally, its
    one effect is the line of the error normalizer tagged [sendEvent]
    with that check's condition, and no request is issued. When all
    four pass, the one effect is a POST to the configured URL. *)
Theorem sendEvent_validation_order type data st :
  let data' := default_param data (VObj []) in
  let c := config (this st) in
  (isInitialized (this st) = false ->
   rejects type data st "instance is not initialized")
  /\ (isInitialized (this st) = true ->
      truthy type = false ->
      rejects type data st "invalid event type")
  /\ (isInitialized (this st) = true ->
      truthy type = true ->
      is_plain_mapping data' = false ->
      rejects type data st "invalid custom data")
  /\ (isInitialized (this st) = true ->
      truthy type = true ->
      is_plain_mapping data' = true ->
      truthy (apiKey c) && truthy (apiUrl c) = false ->
      rejects type data st "invalid API config")
  /\ (isInitialized (this st) = true ->
      truthy type = true ->
      is_plain_mapping data' = true ->
      truthy (apiKey c) && truthy (apiUrl c) = true ->
      exists payload,
        sendEvent type data st
        = (Normal VUndefined,
           logged st (fetch (apiUrl c) (json_post (VObj payload))))).
Proof.
  cbv zeta.
  assert (R : forall message,
             first_violation st type (default_param data (VObj [])) = Some message ->
             rejects type data st message).
  { intros message H. unfold rejects. rewrite sendEvent_run. cbv zeta. rewrite H.
    split; [reflexivity|]. simpl. rewrite requests_app. simpl.
    now rewrite app_nil_r. }
  unfold first_violation in R.
  split; [|split; [|split; [|split]]].
  - intros H1. apply R. now rewrite H1.
  - intros H1 H2. apply R. now rewrite H1, H2.
  - intros H1 H2 H3. apply R. now rewrite H1, H2, H3.
  - intros H1 H2 H3 H4. apply R. now rewrite H1, H2, H3, H4.
  - intros H1 H2 H3 H4. eexists. rewrite sendEvent_run. cbv zeta.
    unfold first_violation. rewrite H1, H2, H3, H4. reflexivity.
Qed.

(** C2. A call that passes the four checks posts a payload that is,
    key by key, the merge of the type tag, then the template, then the
    caller's data, the last writer winning: a key of [data] takes the
    value of [data] (so [$session_id] in [data] replaces the
    template's), any other key of the template keeps the template's
    value, and [$type] is the type otherwise. *)
Theorem sendEvent_payload_merge type data st :
  first_violation st type data = None ->
  exists payload,
    sendEvent type data st
    = (Normal VUndefined,
       logged st (fetch (apiUrl (config (this st))) (json_post (VObj payload))))
    /\ forall k,
         lookup k payload = merged type (eventData (this st)) (own_props data) k.
Proof.
  intros H. exists (payload_of st type data). split.
  - now apply sendEvent_valid.
  - intros k. apply lookup_payload_of.
Qed.

(** C9. When the data of a valid call contains the key [$type], the
    posted payload carries the data's value under [$type], whatever the
    type argument was. *)
Theorem data_type_key_replaces_type_tag type data st v :
  first_violation st type data = None ->
  lookup "$type" (own_props data) = Some v ->
  exists payload,
    sendEvent type data st
    = (Normal VUndefined,
       logged st (fetch (apiUrl (config (this st))) (json_post (VObj payload))))
    /\ lookup "$type" payload = Some v.
Proof.
  intros H Hv. exists (payload_of st type data). split.
  - now apply sendEvent_valid.
  - rewrite lookup_payload_of. unfold merged. now rewrite Hv.
Qed.

(** C10. On an initialized adapter and with a truthy type,
    [sendEvent(type)] with the data omitted (or [undefined]) behaves as
    [sendEvent(type, {})]: with a valid API configuration it posts the
    type tag merged with the template. [sendEvent(type, null)] is
    rejected as invalid custom data, with one normalized line and no
    request. *)
Theorem sendEvent_omitted_data_vs_null type st :
  isInitialized (this st) = true ->
  truthy type = true ->
  sendEvent type VUndefined st = sendEvent type (VObj []) st
  /\ (first_violation st type (VObj []) = None ->
      exists payload,
        sendEvent type VUndefined st
        = (Normal VUndefined,
           logged st (fetch (apiUrl (config (this st))) (json_post (VObj payload))))
        /\ forall k, lookup k payload = merged type (eventData (this st)) [] k)
  /\ sendEvent type VNull st
     = (Normal VUndefined, logged st (normalized "sendEvent" "invalid custom data"))
  /\ requests (trace (window (snd (sendEvent type VNull st))))
     = requests (trace (window st)).
Proof.
  intros Hinit Htype.
  assert (Hnull : sendEvent type VNull st
    = (Normal VUndefined, logged st (normalized "sendEvent" "invalid custom data"))).
  { rewrite sendEvent_run. cbv zeta. unfold first_violation.
    rewrite Hinit, Htype. reflexivity. }
  split; [|split; [|split]].
  - reflexivity.
  - intros H. exists (payload_of st type (VObj [])). split.
    + change (sendEvent type VUndefined st) with (sendEvent type (VObj []) st).
      now apply sendEvent_valid.
    + intros k. apply lookup_payload_of.
  - exact Hnull.
  - rewrite Hnull. simpl. rewrite requests_app. simpl. now rewrite app_nil_r.
Qed.

End SendGate.

(** Worked instances on the adapter of the bootstrap. *)

(** Every check fails at once: the first one decides. *)
Lemma sendEvent_validation_order_witness :
  isInitialized (this raw) = false
  /\ truthy VNull = false
  /\ is_plain_mapping (VArr []) = false
  /\ rejects VNull (VArr []) raw "instance is not initialized".
Proof.
  split; [reflexivity|]. split; [reflexivity|]. split; [reflexivity|].
  apply (proj1 (sendEvent_validation_order VNull (VArr []) raw)). reflexivity.
Defined.

Lemma sendEvent_payload_merge_witness :
  first_violation st0 (VStr "$create_account")
    (VObj [("custom", VStr "var_value"); ("$session_id", VStr "mine")]) = None
  /\ exists payload,
       sendEvent (VStr "$create_account")
         (VObj [("custom", VStr "var_value"); ("$session_id", VStr "mine")]) st0
       = (Normal VUndefined,
          logged st0 (fetch (apiUrl (config (this st0))) (json_post (VObj payload))))
       /\ forall k,
            lookup k payload
            = merged (VStr "$create_account") (eventData (this st0))
                (own_props (VObj [("custom", VStr "var_value");
                                  ("$session_id", VStr "mine")])) k.
Proof.
  split; [reflexivity|].
  apply (sendEvent_payload_merge (VStr "$create_account")
           (VObj [("custom", VStr "var_value"); ("$session_id", VStr "mine")]) st0).
  reflexivity.
Defined.

Lemma data_type_key_replaces_type_tag_witness :
  first_violation st0 (VStr "$login") (VObj [("$type", VStr "$logout")]) = None
  /\ lookup "$type" (own_props (VObj [("$type", VStr "$logout")])) = Some (VStr "$logout")
  /\ exists payload,
       sendEvent (VStr "$login") (VObj [("$type", VStr "$logout")]) st0
       = (Normal VUndefined,
          logged st0 (fetch (apiUrl (config (this st0))) (json_post (VObj payload))))
       /\ lookup "$type" payload = Some (VStr "$logout").
Proof.
  split; [reflexivity|]. split; [reflexivity|].
  apply (data_type_key_replaces_type_tag (VStr "$login")
           (VObj [("$type", VStr "$logout")]) st0 (VStr "$logout"));
    reflexivity.
Defined.

Lemma sendEvent_omitted_data_vs_null_witness :
  isInitialized (this st0) = true
  /\ truthy (VStr "$login") = true
  /\ sendEvent (VStr "$login") VNull st0
     = (Normal VUndefined, logged st0 (normalized "sendEvent" "invalid custom data")).
Proof.
  split; [reflexivity|]. split; [reflexivity|].
  apply (sendEvent_omitted_data_vs_null (VStr "$login") st0); reflexivity.
Defined.

(* ===================================================================== *)
(** * The error normalizer *)
(* ===================================================================== *)

Section ErrorNormalizer.

Implicit Types (error method : value) (st : state).





End ErrorNormalizer.



(* ===================================================================== *)
(** * The snippet loader and the lifecycle *)
(* ===================================================================== *)

Section SnippetLoader.

Implicit Types (st : state) (c : configuration) (s : settlement).

(** The loader with a missing precondition: the promise is rejected
    inside the executor and the page is untouched. *)
Lemma loadSnippet_not_ready st :
  loader_ready (config (this st)) = false ->
  _loadSnippet st = (Normal (settled (Rejected (Error "invalid config"))), st).
Proof.
  unfold loader_ready, _loadSnippet, _loadSnippet_executor. run. intros H.
  destruct (truthy (feid (config (this st)))); simpl in *; [|reflexivity].
  destruct (truthy (snippetKey (config (this st)))); simpl in *; [|reflexivity].
  destruct (truthy (snippetSrc (config (this st)))); simpl in *; [discriminate|].
  reflexivity.
Qed.

(** The loader with its preconditions: four pushes, then the script. *)
Lemma loadSnippet_ready st :
  loader_ready (config (this st)) = true ->
  _loadSnippet st =
  (Normal (on_script (snippet_script (config (this st)))),
   {| this := this st;
      window :=
        {| _sift := Some (queue (window st) ++ snippet_commands (config (this st)))%list;
           trace := (trace (window st)
                     ++ map sift_push (snippet_commands (config (this st)))
                     ++ [head_appendChild (snippet_script (config (this st)))])%list |} |}).
Proof.
  unfold loader_ready, _loadSnippet, _loadSnippet_executor. run. intros H.
  destruct (truthy (feid (config (this st)))); simpl in *; [|discriminate].
  destruct (truthy (snippetKey (config (this st)))); simpl in *; [|discriminate].
  destruct (truthy (snippetSrc (config (this st)))); simpl in *; [|discriminate].
  unfold queue. simpl. rewrite <- !app_assoc. reflexivity.
Qed.


(** The handlers of [_init] never write [isInitialized], [eventData]
    or [config]. *)
Lemma init_settled_frame s st :
  isInitialized (this (snd (_init_settled s st))) = isInitialized (this st)
  /\ eventData (this (snd (_init_settled s st))) = eventData (this st)
  /\ config (this (snd (_init_settled s st))) = config (this st).
Proof.
  unfold _init_settled, _init_then, _init_catch, _handleError. run.
  destruct s as [v|reason]; simpl; auto.
  destruct (get reason "message"); simpl; auto.
Qed.

(** [_init], computed. *)
Lemma init_run nav st :
  _init nav st =
  _loadSnippet
    {| this := {| config := config (this st);
                  eventData := template (config (this st)) nav;
                  isInitialized := true;
                  snippetLoaded := snippetLoaded (this st) |};
       window := window st |}.
Proof. reflexivity. Qed.

End SnippetLoader.

Section Queue.

Implicit Types (st : state).

Lemma only_logs_refl st : only_logs st st.
Proof. split; reflexivity. Qed.

Lemma only_logs_trans st1 st2 st3 :
  only_logs st1 st2 -> only_logs st2 st3 -> only_logs st1 st3.
Proof. intros [H1 H2] [H3 H4]. split; congruence. Qed.

Lemma handleError_only_logs error method st :
  only_logs st (snd (_handleError error method st)).
Proof.
  unfold _handleError. run. destruct (get error "message"); split; reflexivity.
Qed.

Lemma apiSendEvent_only_logs type data st :
  only_logs st (snd (_apiSendEvent type data st)).
Proof.
  unfold _apiSendEvent, _apiPostData. run.
  destruct (isInitialized (this st)); simpl; [|apply only_logs_refl].
  destruct (truthy type); simpl; [|apply only_logs_refl].
  destruct (Object_prototype_toString data =? "[object Object]"); simpl;
    [|apply only_logs_refl].
  destruct (truthy (apiKey (config (this st)))); simpl; [|apply only_logs_refl].
  destruct (truthy (apiUrl (config (this st)))); simpl; split; reflexivity.
Qed.

Lemma sendEvent_only_logs type data st :
  only_logs st (snd (sendEvent type data st)).
Proof.
  rewrite sendEvent_run. cbv zeta.
  destruct (first_violation st type (default_param data (VObj [])));
    split; reflexivity.
Qed.

Lemma apiSendEvent_then_only_logs type response st :
  only_logs st (snd (_apiSendEvent_then type response st)).
Proof.
  unfold _apiSendEvent_then. run.
  destruct (get response "ok") as [ok|e]; simpl; [|apply only_logs_refl].
  destruct (truthy ok); simpl; [split; reflexivity|].
  destruct (get response "error_message"); apply only_logs_refl.
Qed.

Lemma apiSendEvent_settled_only_logs type s st :
  only_logs st (snd (_apiSendEvent_settled type s st)).
Proof.
  unfold _apiSendEvent_settled, promise_then, promise_catch, _apiSendEvent_catch.
  destruct s as [response|reason].
  - pose proof (apiSendEvent_then_only_logs type response st) as H.
    destruct (_apiSendEvent_then type response st) as [[r|e] st1]; simpl in *; auto.
    pose proof (handleError_only_logs e (VStr "sendEvent") st1) as H1.
    destruct (_handleError e (VStr "sendEvent") st1) as [[r|e'] st2]; simpl in *;
      eapply only_logs_trans; eauto.
  - pose proof (handleError_only_logs reason (VStr "sendEvent") st) as H1.
    destruct (_handleError reason (VStr "sendEvent") st) as [[r|e'] st2]; simpl in *;
      auto.
Qed.

Lemma init_settled_sift s st :
  _sift (window (snd (_init_settled s st))) = _sift (window st).
Proof.
  unfold _init_settled, _init_then, _init_catch, _handleError. run.
  destruct s as [v|reason]; simpl; auto.
  destruct (get reason "message"); reflexivity.
Qed.

(** The loader extends the queue, or leaves the page alone. *)
Lemma loadSnippet_queue st :
  exists added,
    queue (window (snd (_loadSnippet st))) = (queue (window st) ++ added)%list.
Proof.
  destruct (loader_ready (config (this st))) eqn:H.
  - rewrite (loadSnippet_ready _ H). eexists. reflexivity.
  - rewrite (loadSnippet_not_ready _ H). exists []. now rewrite app_nil_r.
Qed.

Lemma queue_unchanged (w w' : page) :
  _sift w' = _sift w -> exists added, queue w' = (queue w ++ added)%list.
Proof.
  intros H. exists []. unfold queue. rewrite H. now rewrite app_nil_r.
Qed.

(** One action of the adapter only appends to the queue. *)
Lemma adapter_step_queue st st' :
  adapter_step st st' ->
  exists added, queue (window st') = (queue (window st) ++ added)%list.
Proof.
  intros H. destruct H.
  - unfold constructor. cbv zeta. rewrite init_run.
    match goal with
    | |- context [_loadSnippet ?S] =>
        destruct (loadSnippet_queue S) as [added Ha]; exists added; exact Ha
    end.
  - rewrite init_run.
    match goal with
    | |- context [_loadSnippet ?S] =>
        destruct (loadSnippet_queue S) as [added Ha]; exists added; exact Ha
    end.
  - apply loadSnippet_queue.
  - apply queue_unchanged, init_settled_sift.
  - apply queue_unchanged, sendEvent_only_logs.
  - apply queue_unchanged, apiSendEvent_only_logs.
  - apply queue_unchanged. reflexivity.
  - apply queue_unchanged, apiSendEvent_settled_only_logs.
  - apply queue_unchanged, handleError_only_logs.
Qed.

(** So does any number of them: the queue is append-only. *)
Lemma adapter_steps_queue st st' :
  adapter_steps st st' ->
  exists added, queue (window st') = (queue (window st) ++ added)%list.
Proof.
  induction 1 as [st|st1 st2 st3 Hstep _ [added2 IH]].
  - exists []. now rewrite app_nil_r.
  - destruct (adapter_step_queue _ _ Hstep) as [added1 H1].
    exists (added1 ++ added2)%list. rewrite IH, H1. now rewrite app_assoc.
Qed.

(** C7. When the loader's preconditions hold, [_loadSnippet] leaves
    [window._sift] defined (creating it when absent) and holding the
    former commands followed by exactly four new ones, in this order:
    [_setAccount] with the snippet key, [_setUserId] with the
    namespaced user id, [_setSessionId] with the session id,
    [_trackPageview]. The four pushes precede the injection of the
    script element, which is the last effect. Over any sequence of
    actions of the adapter, the queue only grows at its end. *)
Theorem loadSnippet_queue_commands st :
  loader_ready (config (this st)) = true ->
  exists st',
    _loadSnippet st = (Normal (on_script (snippet_script (config (this st)))), st')
    /\ this st' = this st
    /\ _sift (window st')
       = Some (queue (window st)
               ++ [ VArr [VStr "_setAccount"; snippetKey (config (this st))];
                    VArr [VStr "_setUserId"; userId (config (this st))];
                    VArr [VStr "_setSessionId"; feid (config (this st))];
                    VArr [VStr "_trackPageview"] ])%list
    /\ trace (window st')
       = (trace (window st)
          ++ [ sift_push (VArr [VStr "_setAccount"; snippetKey (config (this st))]);
               sift_push (VArr [VStr "_setUserId"; userId (config (this st))]);
               sift_push (VArr [VStr "_setSessionId"; feid (config (this st))]);
               sift_push (VArr [VStr "_trackPageview"]);
               head_appendChild (snippet_script (config (this st))) ])%list
    /\ forall s s',
         adapter_steps s s' ->
         exists added, queue (window s') = (queue (window s) ++ added)%list.
Proof.
  intros H. eexists. split; [now apply loadSnippet_ready|].
  simpl. repeat split. apply adapter_steps_queue.
Qed.

End Queue.

Lemma loadSnippet_queue_commands_witness :
  loader_ready (config (this st0)) = true
  /\ exists st',
       _loadSnippet st0 = (Normal (on_script (snippet_script (config (this st0)))), st')
       /\ this st' = this st0
       /\ _sift (window st')
          = Some (queue (window st0)
                  ++ [ VArr [VStr "_setAccount"; snippetKey (config (this st0))];
                       VArr [VStr "_setUserId"; userId (config (this st0))];
                       VArr [VStr "_setSessionId"; feid (config (this st0))];
                       VArr [VStr "_trackPageview"] ])%list
       /\ trace (window st')
          = (trace (window st0)
             ++ [ sift_push (VArr [VStr "_setAccount"; snippetKey (config (this st0))]);
                  sift_push (VArr [VStr "_setUserId"; userId (config (this st0))]);
                  sift_push (VArr [VStr "_setSessionId"; feid (config (this st0))]);
                  sift_push (VArr [VStr "_trackPageview"]);
                  head_appendChild (snippet_script (config (this st0))) ])%list
       /\ forall s s',
            adapter_steps s s' ->
            exists added, queue (window s') = (queue (window s) ++ added)%list.
Proof.
  split; [reflexivity|].
  apply (loadSnippet_queue_commands st0). reflexivity.
Defined.

Section Lifecycle.

Implicit Types (st : state) (nav : navigator).

Lemma loader_not_ready c :
  truthy (feid c) = false \/ truthy (snippetKey c) = false
  \/ truthy (snippetSrc c) = false ->
  loader_ready c = false.
Proof.
  unfold loader_ready. intros [H|[H|H]]; rewrite H;
    rewrite ?andb_false_r; reflexivity.
Qed.

(** C6. When the session id, the snippet key or the snippet source is
    falsy, the loader's promise is rejected with the error
    [invalid config] and the state is untouched: no command is
    appended and no script is injected, also when [_init] runs the
    loader. The rejection reaches the same [catch] handler as the
    script's error event does, and either ends in one line of the
    normalizer tagged [loadSnippet]. *)
Theorem loadSnippet_invalid_config nav st :
  truthy (feid (config (this st))) = false
  \/ truthy (snippetKey (config (this st))) = false
  \/ truthy (snippetSrc (config (this st))) = false ->
  _loadSnippet st = (Normal (settled (Rejected (Error "invalid config"))), st)
  /\ (exists st',
        _init nav st = (Normal (settled (Rejected (Error "invalid config"))), st')
        /\ window st' = window st)
  /\ (forall answer,
        script_settlement (settled (Rejected (Error "invalid config"))) answer
        = Some (Rejected (Error "invalid config")))
  /\ (forall st',
        _init_settled (Rejected (Error "invalid config")) st'
        = (Fulfilled VUndefined,
           logged st' (normalized "loadSnippet" "invalid config")))
  /\ (forall c st',
        script_settlement (on_script (snippet_script c)) (Some error)
        = Some (Rejected (VStr "script fetching failed"))
        /\ _init_settled (Rejected (VStr "script fetching failed")) st'
           = (Fulfilled VUndefined,
              logged st' (normalized "loadSnippet" "script fetching failed"))).
Proof.
  intros H. apply loader_not_ready in H.
  split; [now apply loadSnippet_not_ready|].
  split.
  - rewrite init_run. rewrite loadSnippet_not_ready by exact H.
    eexists. split; reflexivity.
  - repeat split; reflexivity.
Qed.


End Lifecycle.

Lemma loadSnippet_invalid_config_witness :
  (truthy (feid (config (this (snd (constructor (VStr "userId") (VStr "") VUndefined
                                                 nav0 page0))))) = false
   \/ truthy (snippetKey (config (this (snd (constructor (VStr "userId") (VStr "")
                                                          VUndefined nav0 page0)))))
      = false
   \/ truthy (snippetSrc (config (this (snd (constructor (VStr "userId") (VStr "")
                                                          VUndefined nav0 page0)))))
      = false)
  /\ _loadSnippet (snd (constructor (VStr "userId") (VStr "") VUndefined nav0 page0))
     = (Normal (settled (Rejected (Error "invalid config"))),
        snd (constructor (VStr "userId") (VStr "") VUndefined nav0 page0)).
Proof.
  split; [left; reflexivity|].
  apply (loadSnippet_invalid_config nav0
           (snd (constructor (VStr "userId") (VStr "") VUndefined nav0 page0))).
  left. reflexivity.
Defined.

(* ===================================================================== *)
(** * Delivery and the no-throw policy *)
(* ===================================================================== *)

Section Delivery.

Implicit Types (type data : value) (st : state).



End Delivery.

(* ===================================================================== *)
(** * The template under sends *)
(* ===================================================================== *)

Section TemplateFrame.

Implicit Types (type data : value) (st : state).

Lemma send_step_this st st' : send_step st st' -> this st' = this st.
Proof.
  intros H. destruct H.
  - apply sendEvent_only_logs.
  - apply apiSendEvent_settled_only_logs.
Qed.

(** No sequence of sends and request handlers writes the instance. *)
Lemma send_steps_this st st' : send_steps st st' -> this st' = this st.
Proof.
  induction 1 as [st|st1 st2 st3 Hstep _ IH]; [reflexivity|].
  rewrite IH. now apply send_step_this.
Qed.

Lemma template_has_no_type_tag c nav : lookup "$type" (template c nav) = None.
Proof. reflexivity. Qed.

(** C8, as amended. Sends never write the instance: over every
    sequence of [sendEvent] calls and request handlers the template
    (indeed every field of the instance) is what it was. Two valid
    sends in a row on an initialized adapter issue two requests, whose
    payloads agree with the template, and so with each other, on every
    template key that neither call's data overrides; and each payload
    carries the type of its own call under [$type] provided its data
    does not itself contain the key [$type]. *)
Theorem sends_leave_template st nav t1 d1 t2 d2 :
  eventData (this st) = template (config (this st)) nav ->
  first_violation st t1 d1 = None ->
  first_violation st t2 d2 = None ->
  (forall s s', send_steps s s' -> this s' = this s)
  /\ exists p1 p2,
       this (snd (sendEvent t1 d1 st)) = this st
       /\ this (snd (sendEvent t2 d2 (snd (sendEvent t1 d1 st)))) = this st
       /\ trace (window (snd (sendEvent t2 d2 (snd (sendEvent t1 d1 st)))))
          = (trace (window st)
             ++ [ fetch (apiUrl (config (this st))) (json_post (VObj p1));
                  fetch (apiUrl (config (this st))) (json_post (VObj p2)) ])%list
       /\ (forall k v,
             lookup k (template (config (this st)) nav) = Some v ->
             lookup k (own_props d1) = None ->
             lookup k (own_props d2) = None ->
             lookup k p1 = Some v /\ lookup k p2 = Some v)
       /\ (lookup "$type" (own_props d1) = None -> lookup "$type" p1 = Some t1)
       /\ (lookup "$type" (own_props d2) = None -> lookup "$type" p2 = Some t2).
Proof.
  intros Ht H1 H2. split; [apply send_steps_this|].
  exists (payload_of st t1 d1), (payload_of st t2 d2).
  assert (E1 : sendEvent t1 d1 st
               = (Normal VUndefined,
                  logged st (fetch (apiUrl (config (this st)))
                                   (json_post (VObj (payload_of st t1 d1))))))
    by now apply sendEvent_valid.
  rewrite E1. cbn [snd].
  assert (E2 : sendEvent t2 d2
                 (logged st (fetch (apiUrl (config (this st)))
                                   (json_post (VObj (payload_of st t1 d1)))))
               = (Normal VUndefined,
                  logged (logged st (fetch (apiUrl (config (this st)))
                                           (json_post (VObj (payload_of st t1 d1)))))
                         (fetch (apiUrl (config (this st)))
                                (json_post (VObj (payload_of st t2 d2))))))
    by exact (sendEvent_valid t2 d2
                (logged st (fetch (apiUrl (config (this st)))
                                  (json_post (VObj (payload_of st t1 d1))))) H2).
  rewrite E2. cbn [snd].
  split; [reflexivity|]. split; [reflexivity|].
  split; [simpl; now rewrite <- app_assoc|].
  split; [|split].
  - intros k v Hk Hk1 Hk2. rewrite !lookup_payload_of. unfold merged.
    rewrite Hk1, Hk2, Ht, Hk. split; reflexivity.
  - intros Hk. rewrite lookup_payload_of. unfold merged.
    now rewrite Hk, Ht, template_has_no_type_tag.
  - intros Hk. rewrite lookup_payload_of. unfold merged.
    now rewrite Hk, Ht, template_has_no_type_tag.
Qed.

End TemplateFrame.

Lemma sends_leave_template_witness :
  eventData (this st0) = template (config (this st0)) nav0
  /\ first_violation st0 (VStr "$create_account") (VObj [("custom", VStr "var_value")])
     = None
  /\ first_violation st0 (VStr "$login") (VObj []) = None
  /\ forall s s', send_steps s s' -> this s' = this s.
Proof.
  split; [reflexivity|]. split; [reflexivity|]. split; [reflexivity|].
  apply (proj1 (sends_leave_template st0 nav0
                  (VStr "$create_account") (VObj [("custom", VStr "var_value")])
                  (VStr "$login") (VObj [])
                  eq_refl eq_refl eq_refl)).
Defined.

(** C8, as stated, fails. Two valid sends in a row with the different
    types [a] and [b], each with the data [{"$type": "x"}], issue two
    requests whose payloads both carry ["x"] under [$type]: neither
    carries the type of its own call, and the two tags are the same. *)
Lemma two_sends_one_type_tag :
  first_violation st0 (VStr "a") (VObj [("$type", VStr "x")]) = None
  /\ first_violation (snd (sendEvent (VStr "a") (VObj [("$type", VStr "x")]) st0))
       (VStr "b") (VObj [("$type", VStr "x")]) = None
  /\ VStr "a" <> VStr "b"
  /\ exists p1 p2,
       trace (window (snd (sendEvent (VStr "b") (VObj [("$type", VStr "x")])
                             (snd (sendEvent (VStr "a") (VObj [("$type", VStr "x")])
                                     st0))))) 
       = (trace (window st0)
          ++ [ fetch (apiUrl (config (this st0))) (json_post (VObj p1));
               fetch (apiUrl (config (this st0))) (json_post (VObj p2)) ])%list
       /\ lookup "$type" p1 = Some (VStr "x")
       /\ lookup "$type" p2 = Some (VStr "x")
       /\ lookup "$type" p1 <> Some (VStr "a")
       /\ lookup "$type" p2 <> Some (VStr "b").
Proof.
  split; [reflexivity|]. split; [reflexivity|]. split; [discriminate|].
  do 2 eexists. split; [reflexivity|].
  split; [reflexivity|]. split; [reflexivity|]. split; discriminate.
Qed.

(* ===================================================================== *)
(** * The adapter after construction *)
(* ===================================================================== *)

Section Built.

Implicit Types (type data : value) (st : state).

Lemma built_frame st st' :
  isInitialized (this st') = isInitialized (this st) ->
  eventData (this st') = eventData (this st) ->
  config (this st') = config (this st) ->
  built st -> built st'.
Proof.
  intros Hi He Hc (H1 & H2 & nav & H3). unfold built.
  rewrite Hi, He, Hc. eauto.
Qed.

Lemma built_this st st' : this st' = this st -> built st -> built st'.
Proof. intros H. apply built_frame; now rewrite H. Qed.

(** The loader never writes the instance. *)
Lemma loadSnippet_this st : this (snd (_loadSnippet st)) = this st.
Proof.
  destruct (loader_ready (config (this st))) eqn:H.
  - now rewrite (loadSnippet_ready _ H).
  - now rewrite (loadSnippet_not_ready _ H).
Qed.

Lemma init_built nav st : has_constants (config (this st)) -> built (snd (_init nav st)).
Proof.
  intros H. rewrite init_run.
  match goal with |- context [_loadSnippet ?S] => apply (built_this S) end.
  - apply loadSnippet_this.
  - split; [reflexivity|]. split; [exact H|]. exists nav. reflexivity.
Qed.

Lemma constructor_built userId feid network nav w :
  built (snd (constructor userId feid network nav w)).
Proof.
  unfold constructor. cbv zeta. apply init_built. repeat split.
Qed.

Lemma adapter_step_built st st' : adapter_step st st' -> built st -> built st'.
Proof.
  intros H Hb. destruct H.
  - apply constructor_built.
  - apply init_built, Hb.
  - apply (built_this st); [apply loadSnippet_this | exact Hb].
  - destruct (init_settled_frame s st) as (H1 & H2 & H3).
    now apply (built_frame st).
  - apply (built_this st); [apply sendEvent_only_logs | exact Hb].
  - apply (built_this st); [apply apiSendEvent_only_logs | exact Hb].
  - apply (built_this st); [reflexivity | exact Hb].
  - apply (built_this st); [apply apiSendEvent_settled_only_logs | exact Hb].
  - apply (built_this st); [apply handleError_only_logs | exact Hb].
Qed.

Lemma adapter_steps_built st st' : adapter_steps st st' -> built st -> built st'.
Proof.
  induction 1 as [st|st1 st2 st3 Hstep _ IH]; auto.
  intros Hb. apply IH. now apply (adapter_step_built st1).
Qed.

(** X1. Whatever the constructor's arguments, and whatever the adapter
    does afterwards (any sequence of its methods and handlers, further
    constructions included), the instance stays initialized, its
    configuration keeps the four constants, and its template is the one
    [_init] builds from its configuration: no method resets
    [isInitialized] or rewrites the template with anything else. *)
Theorem constructed_adapter_stays_built userId feid network nav w st :
  adapter_steps (snd (constructor userId feid network nav w)) st ->
  isInitialized (this st) = true
  /\ snippetKey (config (this st)) = VStr "SNIPPET_KEY"
  /\ snippetSrc (config (this st)) = VStr "https://cdn.sift.com/s.js"
  /\ apiKey (config (this st)) = VStr "API_KEY"
  /\ apiUrl (config (this st)) = VStr "https://api.sift.com/v205/events"
  /\ exists nav', eventData (this st) = template (config (this st)) nav'.
Proof.
  intros H. apply adapter_steps_built in H; [|apply constructor_built].
  destruct H as (H1 & (H2 & H3 & H4 & H5) & H6). auto 10.
Qed.


End Built.

Lemma constructed_adapter_stays_built_witness :
  adapter_steps
    (snd (constructor (VStr "userId") (VStr "gl.getFEID()") (VStr "network_name")
            nav0 page0))
    (snd (sendEvent VNull VNull st0))
  /\ isInitialized (this (snd (sendEvent VNull VNull st0))) = true.
Proof.
  assert (H : adapter_steps
                (snd (constructor (VStr "userId") (VStr "gl.getFEID()")
                        (VStr "network_name") nav0 page0))
                (snd (sendEvent VNull VNull st0))).
  { eapply steps_next; [apply (step_sendEvent VNull VNull)|apply steps_done]. }
  split; [exact H|].
  apply (constructed_adapter_stays_built _ _ _ _ _ _ H).
Defined.


(* ===================================================================== *)
(** * Construction, identity and the snippet flag *)
(* ===================================================================== *)

Section Construction.

Implicit Types (rawUserId sessionId network type data : value) (st : state).

(** The constructor, computed: [_init] run on the fresh instance. *)
Lemma constructor_run rawUserId sessionId network nav w :
  constructor rawUserId sessionId network nav w
  = _loadSnippet
      {| this :=
           {| config :=
                {| userId :=
                     if truthy (default_param rawUserId VNull)
                     then VStr (to_string (default_param network (VStr "default"))
                                ++ ":" ++ to_string (default_param rawUserId VNull))
                     else VNull;
                   feid := default_param sessionId (VStr "");
                   snippetKey := VStr "SNIPPET_KEY";
                   snippetSrc := VStr "https://cdn.sift.com/s.js";
                   apiKey := VStr "API_KEY";
                   apiUrl := VStr "https://api.sift.com/v205/events" |};
              eventData :=
                template
                  {| userId :=
                       if truthy (default_param rawUserId VNull)
                       then VStr (to_string (default_param network (VStr "default"))
                                  ++ ":" ++ to_string (default_param rawUserId VNull))
                       else VNull;
                     feid := default_param sessionId (VStr "");
                     snippetKey := VStr "SNIPPET_KEY";
                     snippetSrc := VStr "https://cdn.sift.com/s.js";
                     apiKey := VStr "API_KEY";
                     apiUrl := VStr "https://api.sift.com/v205/events" |} nav;
              isInitialized := true;
              snippetLoaded := false |};
         window := w |}.
Proof. reflexivity. Qed.







End Construction.

(* ===================================================================== *)
(** * What sending does not depend on, and what handlers never do *)
(* ===================================================================== *)

Section Independence.

Implicit Types (type data : value) (st : state) (s : settlement).

Lemma handleError_ignores_snippetLoaded error method b st :
  _handleError error method (with_snippetLoaded b st)
  = (fst (_handleError error method st),
     with_snippetLoaded b (snd (_handleError error method st))).
Proof.
  unfold _handleError. run. destruct (get error "message"); reflexivity.
Qed.

(** X6. Sending does not look at [snippetLoaded]: a call of
    [sendEvent], and the handlers of its request, have the same result
    and the same effects whether the snippet has loaded or not, and
    leave the flag as they found it. *)
Theorem sendEvent_ignores_snippetLoaded type data b st :
  sendEvent type data (with_snippetLoaded b st)
  = (fst (sendEvent type data st),
     with_snippetLoaded b (snd (sendEvent type data st)))
  /\ forall s,
       _apiSendEvent_settled type s (with_snippetLoaded b st)
       = (fst (_apiSendEvent_settled type s st),
          with_snippetLoaded b (snd (_apiSendEvent_settled type s st))).
Proof.
  split.
  - rewrite !sendEvent_run. cbv zeta.
    change (first_violation (with_snippetLoaded b st) type
              (default_param data (VObj [])))
      with (first_violation st type (default_param data (VObj []))).
    destruct (first_violation st type (default_param data (VObj [])));
      reflexivity.
  - intros s.
    unfold _apiSendEvent_settled, promise_then, promise_catch,
      _apiSendEvent_catch, _apiSendEvent_then.
    destruct s as [response|reason].
    + run. destruct (get response "ok") as [ok|e].
      * destruct (truthy ok); [reflexivity|].
        destruct (get response "error_message") as [em|e];
          rewrite handleError_ignores_snippetLoaded;
          destruct (_handleError _ (VStr "sendEvent") st) as [[r|e'] st1];
          reflexivity.
      * rewrite handleError_ignores_snippetLoaded.
        destruct (_handleError e (VStr "sendEvent") st) as [[r|e'] st1];
          reflexivity.
    + rewrite handleError_ignores_snippetLoaded.
      destruct (_handleError reason (VStr "sendEvent") st) as [[r|e'] st1];
        reflexivity.
Qed.

Lemma adds_no_request_refl st : adds_no_request st st.
Proof. exists []. now rewrite app_nil_r. Qed.

Lemma adds_no_request_trans st1 st2 st3 :
  adds_no_request st1 st2 -> adds_no_request st2 st3 -> adds_no_request st1 st3.
Proof.
  intros (l1 & H1 & R1) (l2 & H2 & R2). exists (l1 ++ l2)%list.
  rewrite H2, H1, <- app_assoc, requests_app, R1, R2. auto.
Qed.

Lemma adds_no_request_requests st st' :
  adds_no_request st st' ->
  requests (trace (window st')) = requests (trace (window st)).
Proof.
  intros (l & H & R). now rewrite H, requests_app, R, app_nil_r.
Qed.

Lemma handleError_adds_no_request error method st :
  adds_no_request st (snd (_handleError error method st)).
Proof.
  unfold _handleError. run. destruct (get error "message"); simpl.
  - eexists. split; reflexivity.
  - apply adds_no_request_refl.
Qed.

Lemma apiSendEvent_then_adds_no_request type response st :
  adds_no_request st (snd (_apiSendEvent_then type response st)).
Proof.
  unfold _apiSendEvent_then. run.
  destruct (get response "ok") as [ok|e]; simpl; [|apply adds_no_request_refl].
  destruct (truthy ok); simpl; [eexists; split; reflexivity|].
  destruct (get response "error_message"); apply adds_no_request_refl.
Qed.

Lemma apiSendEvent_settled_adds_no_request type s st :
  adds_no_request st (snd (_apiSendEvent_settled type s st)).
Proof.
  unfold _apiSendEvent_settled, promise_then, promise_catch, _apiSendEvent_catch.
  destruct s as [response|reason].
  - pose proof (apiSendEvent_then_adds_no_request type response st) as H.
    destruct (_apiSendEvent_then type response st) as [[r|e] st1]; simpl in *; auto.
    pose proof (handleError_adds_no_request e (VStr "sendEvent") st1) as H1.
    destruct (_handleError e (VStr "sendEvent") st1) as [[r|e'] st2]; simpl in *;
      eapply adds_no_request_trans; eauto.
  - pose proof (handleError_adds_no_request reason (VStr "sendEvent") st) as H1.
    destruct (_handleError reason (VStr "sendEvent") st) as [[r|e'] st2];
      simpl in *; auto.
Qed.

Lemma init_settled_adds_no_request s st :
  adds_no_request st (snd (_init_settled s st)).
Proof.
  unfold _init_settled, _init_then, _init_catch, _handleError. run.
  destruct s as [v|reason]; simpl.
  - eexists. split; reflexivity.
  - destruct (get reason "message"); simpl.
    + eexists. split; reflexivity.
    + apply adds_no_request_refl.
Qed.

(** X7. No handler retries: however a request or the snippet's promise
    settles (any fulfilment value, any rejection reason), the handlers
    that run, and the error normalizer itself, issue no request; the
    requests on the page are those there were. A failed event is
    reported and dropped. *)
Theorem handlers_issue_no_request type s error method st :
  requests (trace (window (snd (_apiSendEvent_settled type s st))))
  = requests (trace (window st))
  /\ requests (trace (window (snd (_init_settled s st))))
     = requests (trace (window st))
  /\ requests (trace (window (snd (_handleError error method st))))
     = requests (trace (window st)).
Proof.
  split; [|split]; apply adds_no_request_requests.
  - apply apiSendEvent_settled_adds_no_request.
  - apply init_settled_adds_no_request.
  - apply handleError_adds_no_request.
Qed.

End Independence.

(* ===================================================================== *)
(** * Requests and the queue over the adapter's life *)
(* ===================================================================== *)

Section Life.

Implicit Types (type data : value) (st : state) (s : settlement).

Lemma adds_no_request_well_formed st st' :
  adds_no_request st st' -> adds_well_formed st st'.
Proof. intros (l & H & R). exists l. rewrite R. auto. Qed.

Lemma adds_well_formed_trans st1 st2 st3 :
  adds_well_formed st1 st2 -> adds_well_formed st2 st3 -> adds_well_formed st1 st3.
Proof.
  intros (l1 & H1 & R1) (l2 & H2 & R2). exists (l1 ++ l2)%list.
  rewrite H2, H1, <- app_assoc, requests_app. split; [reflexivity|].
  apply Forall_app. auto.
Qed.

Lemma loadSnippet_adds_no_request st :
  adds_no_request st (snd (_loadSnippet st)).
Proof.
  destruct (loader_ready (config (this st))) eqn:H.
  - rewrite (loadSnippet_ready _ H). eexists. split; [reflexivity|]. reflexivity.
  - rewrite (loadSnippet_not_ready _ H). apply adds_no_request_refl.
Qed.

Lemma constructor_adds_no_request userId feid network nav st :
  adds_no_request st (snd (constructor userId feid network nav (window st))).
Proof.
  rewrite constructor_run.
  match goal with
  | |- context [_loadSnippet ?S] =>
      destruct (loadSnippet_adds_no_request S) as (l & H & R)
  end.
  exists l. split; [exact H | exact R].
Qed.

Lemma merged_type_tag type (tpl props : list (string * value)) :
  merged type tpl props "$type" <> None.
Proof.
  unfold merged. destruct (lookup "$type" props); [discriminate|].
  destruct (lookup "$type" tpl); discriminate.
Qed.

(** On a built adapter a send adds a line or a well-formed request. *)
Lemma sendEvent_adds_well_formed type data st :
  built st -> adds_well_formed st (snd (sendEvent type data st)).
Proof.
  intros (_ & (_ & _ & _ & Hu) & _). rewrite sendEvent_run. cbv zeta.
  destruct (first_violation st type (default_param data (VObj []))); simpl.
  - eexists. split; [reflexivity|]. constructor.
  - eexists. split; [reflexivity|]. simpl. constructor; [|constructor].
    split; [exact Hu|]. eexists. split; [reflexivity|].
    rewrite lookup_payload_of. apply merged_type_tag.
Qed.

Lemma public_step_adapter st st' : public_step st st' -> adapter_step st st'.
Proof. intros H. destruct H; constructor. Qed.

Lemma public_step_well_formed st st' :
  public_step st st' -> built st -> adds_well_formed st st'.
Proof.
  intros H Hb. destruct H.
  - apply adds_no_request_well_formed, constructor_adds_no_request.
  - now apply sendEvent_adds_well_formed.
  - apply adds_no_request_well_formed, init_settled_adds_no_request.
  - apply adds_no_request_well_formed, apiSendEvent_settled_adds_no_request.
Qed.

Lemma public_steps_well_formed st st' :
  public_steps st st' -> built st -> adds_well_formed st st'.
Proof.
  induction 1 as [st|st1 st2 st3 Hstep _ IH]; intros Hb.
  - exists []. rewrite app_nil_r. split; [reflexivity|constructor].
  - apply (adds_well_formed_trans st1 st2 st3).
    + now apply public_step_well_formed.
    + apply IH. apply (adapter_step_built st1); [|exact Hb].
      now apply public_step_adapter.
Qed.

(** X8. Over the whole life of an adapter (construction, any calls of
    [sendEvent], any answers to its promises, further constructions),
    every request it issues is a JSON POST in no-cors mode to the
    collection endpoint whose body is a plain object with a [$type]
    key. It never issues a request of another method, to another
    address, or with a body that is not an object. *)
Theorem every_request_is_a_json_post userId feid network nav w st :
  public_steps (snd (constructor userId feid network nav w)) st ->
  exists added,
    trace (window st) = (trace w ++ added)%list
    /\ Forall well_formed_request (requests added).
Proof.
  intros H.
  apply public_steps_well_formed in H; [|apply constructor_built].
  pose proof (constructor_adds_no_request userId feid network nav
                {| this := this raw; window := w |}) as H0.
  apply adds_no_request_well_formed in H0.
  destruct (adds_well_formed_trans _ _ _ H0 H) as (l & Hl & Rl).
  exists l. split; [exact Hl | exact Rl].
Qed.

(** One action extends the queue by the commands of one
    configuration, or not at all. *)
Lemma adapter_step_queue_block st st' :
  adapter_step st st' ->
  exists cs,
    queue (window st') = (queue (window st) ++ flat_map snippet_commands cs)%list.
Proof.
  assert (L : forall S,
             exists cs, queue (window (snd (_loadSnippet S)))
                        = (queue (window S) ++ flat_map snippet_commands cs)%list).
  { intros S. destruct (loader_ready (config (this S))) eqn:H.
    - rewrite (loadSnippet_ready _ H). exists [config (this S)].
      reflexivity.
    - rewrite (loadSnippet_not_ready _ H). exists []. simpl. now rewrite app_nil_r. }
  assert (U : forall w w' : page,
             _sift w' = _sift w ->
             exists cs, queue w' = (queue w ++ flat_map snippet_commands cs)%list).
  { intros w w' H. exists []. unfold queue. rewrite H. simpl. now rewrite app_nil_r. }
  intros H. destruct H.
  - rewrite constructor_run.
    match goal with
    | |- context [_loadSnippet ?S] => destruct (L S) as [cs Hc]; exists cs; exact Hc
    end.
  - rewrite init_run.
    match goal with
    | |- context [_loadSnippet ?S] => destruct (L S) as [cs Hc]; exists cs; exact Hc
    end.
  - apply L.
  - apply U, init_settled_sift.
  - apply U, sendEvent_only_logs.
  - apply U, apiSendEvent_only_logs.
  - apply U. reflexivity.
  - apply U, apiSendEvent_settled_only_logs.
  - apply U, handleError_only_logs.
Qed.

(** X9. Whatever the adapter does, the queue grows by whole blocks: what
    is appended to [window._sift] is, for a list of configurations,
    the four commands of each in protocol order. No action appends a
    partial block, another command, or a command out of order. *)
Theorem queue_grows_by_whole_blocks st st' :
  adapter_steps st st' ->
  exists cs,
    queue (window st') = (queue (window st) ++ flat_map snippet_commands cs)%list.
Proof.
  induction 1 as [st|st1 st2 st3 Hstep _ [cs2 IH]].
  - exists []. simpl. now rewrite app_nil_r.
  - destruct (adapter_step_queue_block _ _ Hstep) as [cs1 H1].
    exists (cs1 ++ cs2)%list. rewrite IH, H1, flat_map_app. now rewrite app_assoc.
Qed.

(** X10. The loader has no guard against a second run: run twice with
    its preconditions, it appends the four commands twice and injects
    two script elements. *)
Theorem loadSnippet_twice_duplicates st :
  loader_ready (config (this st)) = true ->
  queue (window (snd (_loadSnippet (snd (_loadSnippet st)))))
  = (queue (window st) ++ snippet_commands (config (this st))
     ++ snippet_commands (config (this st)))%list
  /\ trace (window (snd (_loadSnippet (snd (_loadSnippet st)))))
     = (trace (window st)
        ++ map sift_push (snippet_commands (config (this st)))
        ++ [head_appendChild (snippet_script (config (this st)))]
        ++ map sift_push (snippet_commands (config (this st)))
        ++ [head_appendChild (snippet_script (config (this st)))])%list.
Proof.
  intros H. rewrite (loadSnippet_ready _ H). cbn [snd].
  rewrite loadSnippet_ready by exact H. cbn [snd window queue _sift trace this].
  rewrite <- !app_assoc. split; reflexivity.
Qed.

(** X11. The configuration is written once: every action of the adapter
    other than a new construction leaves [config] as it is. *)
Theorem configuration_is_written_once st st' :
  adapter_step st st' ->
  config (this st') = config (this st)
  \/ exists userId feid network nav,
       st' = snd (constructor userId feid network nav (window st)).
Proof.
  intros H. destruct H.
  - right. eauto.
  - left. rewrite init_run. now rewrite loadSnippet_this.
  - left. now rewrite loadSnippet_this.
  - left. apply init_settled_frame.
  - left. f_equal. apply sendEvent_only_logs.
  - left. f_equal. apply apiSendEvent_only_logs.
  - left. reflexivity.
  - left. f_equal. apply apiSendEvent_settled_only_logs.
  - left. f_equal. apply handleError_only_logs.
Qed.

End Life.

Lemma every_request_is_a_json_post_witness :
  public_steps
    (snd (constructor (VStr "userId") (VStr "gl.getFEID()") (VStr "network_name")
            nav0 page0))
    (snd (sendEvent (VStr "$login") VUndefined st0))
  /\ exists added,
       trace (window (snd (sendEvent (VStr "$login") VUndefined st0)))
       = (trace page0 ++ added)%list
       /\ Forall well_formed_request (requests added).
Proof.
  assert (H : public_steps
                (snd (constructor (VStr "userId") (VStr "gl.getFEID()")
                        (VStr "network_name") nav0 page0))
                (snd (sendEvent (VStr "$login") VUndefined st0))).
  { eapply public_next; [apply (public_sendEvent (VStr "$login") VUndefined)|].
    apply public_done. }
  split; [exact H|].
  apply (every_request_is_a_json_post _ _ _ _ _ _ H).
Defined.

Lemma queue_grows_by_whole_blocks_witness :
  adapter_steps st0 (snd (_loadSnippet st0))
  /\ exists cs,
       queue (window (snd (_loadSnippet st0)))
       = (queue (window st0) ++ flat_map snippet_commands cs)%list.
Proof.
  assert (H : adapter_steps st0 (snd (_loadSnippet st0))).
  { eapply steps_next; [apply step_loadSnippet | apply steps_done]. }
  split; [exact H|].
  apply (queue_grows_by_whole_blocks _ _ H).
Defined.

Lemma loadSnippet_twice_duplicates_witness :
  loader_ready (config (this st0)) = true
  /\ queue (window (snd (_loadSnippet (snd (_loadSnippet st0)))))
     = (queue (window st0) ++ snippet_commands (config (this st0))
        ++ snippet_commands (config (this st0)))%list.
Proof.
  split; [reflexivity|].
  apply (proj1 (loadSnippet_twice_duplicates st0 eq_refl)).
Defined.

Lemma configuration_is_written_once_witness :
  adapter_step st0 (snd (sendEvent (VStr "$login") VUndefined st0))
  /\ (config (this (snd (sendEvent (VStr "$login") VUndefined st0)))
      = config (this st0)
      \/ exists userId feid network nav,
           snd (sendEvent (VStr "$login") VUndefined st0)
           = snd (constructor userId feid network nav (window st0))).
Proof.
  split; [apply step_sendEvent|].
  apply (configuration_is_written_once _ _
           (step_sendEvent (VStr "$login") VUndefined st0)).
Defined.

(* ===================================================================== *)
(** * Edge cases of reporting, the payload's keys, the bootstrap *)
(* ===================================================================== *)

Section Edges.

Implicit Types (type data : value) (st : state).




Lemma In_keys_lookup k (o : list (string * value)) :
  In k (keys o) <-> lookup k o <> None.
Proof.
  pose proof (lookup_In_keys k o) as H.
  destruct (in_dec string_dec k (keys o)) as [Hin|Hnin].
  - split; [|auto]. intros _ Hn. apply H in Hn. contradiction.
  - split; [contradiction|]. intros Hn. exfalso. apply Hn. now apply H.
Qed.

Lemma In_keys_set_prop k k' v (o : list (string * value)) :
  In k' (keys (set_prop k v o)) <-> k' = k \/ In k' (keys o).
Proof.
  rewrite !In_keys_lookup. destruct (string_dec k k') as [->|Hne].
  - rewrite lookup_set_prop_same. split; [auto|discriminate].
  - rewrite (lookup_set_prop_other _ _ _ _ Hne). split; [auto|].
    intros [->|H]; [contradiction|exact H].
Qed.

(** Defining a property never makes a key appear twice. *)
Lemma NoDup_keys_set_prop k v (o : list (string * value)) :
  NoDup (keys o) -> NoDup (keys (set_prop k v o)).
Proof.
  induction o as [|[k1 v1] o IH]; simpl; intros H.
  - constructor; [auto|constructor].
  - inversion H as [|? ? Hnin Hnd]; subst.
    destruct (k1 =? k) eqn:E; simpl.
    + constructor; assumption.
    + constructor; [|now apply IH].
      change (~ In k1 (keys (set_prop k v o))). rewrite In_keys_set_prop.
      apply String.eqb_neq in E. intros [->|Hin]; [now apply E|contradiction].
Qed.

Lemma NoDup_keys_copy_props (src dst : list (string * value)) :
  NoDup (keys dst) -> NoDup (keys (copy_props src dst)).
Proof.
  unfold copy_props. generalize (keys src) as ks. intros ks. revert dst.
  induction ks as [|k ks IH]; simpl; intros dst H; auto.
  apply IH. now apply NoDup_keys_set_prop.
Qed.

(** X14. The posted payload is a well-formed object whatever the
    caller passes: no key occurs twice, and its keys are exactly
    [$type], the keys of the template and the keys of the data. *)
Theorem payload_keys type data st :
  first_violation st type data = None ->
  exists payload,
    sendEvent type data st
    = (Normal VUndefined,
       logged st (fetch (apiUrl (config (this st))) (json_post (VObj payload))))
    /\ NoDup (keys payload)
    /\ forall k,
         In k (keys payload)
         <-> k = "$type" \/ In k (keys (eventData (this st)))
             \/ In k (keys (own_props data)).
Proof.
  intros H. exists (payload_of st type data).
  split; [now apply sendEvent_valid|]. split.
  - unfold payload_of. do 2 apply NoDup_keys_copy_props.
    simpl. constructor; [auto|constructor].
  - intros k. rewrite !In_keys_lookup, lookup_payload_of. unfold merged.
    destruct (lookup k (own_props data)) eqn:Ed.
    + split; [intros _; right; right; discriminate | discriminate].
    + destruct (lookup k (eventData (this st))) eqn:Et.
      * split; [intros _; right; left; discriminate | discriminate].
      * destruct (k =? "$type") eqn:Ek.
        -- apply String.eqb_eq in Ek. split; [auto | discriminate].
        -- apply String.eqb_neq in Ek. split; [intros C; now contradiction C|].
           intros [C|[C|C]]; [contradiction | now contradiction C..].
Qed.

(** X15. The page's bootstrap, in any browser and on any page: it ends
    normally; the page's queue (the former one, or a new one) receives
    the four commands for the key [SNIPPET_KEY], the user
    [network_name:userId] and the session [gl.getFEID()]; the script
    is injected; and exactly one event is posted, of type
    [$create_account], carrying the template and the field [custom]. *)
Theorem bootstrap_effects nav w :
  exists st,
    bootstrap nav w = (Normal VUndefined, st)
    /\ isInitialized (this st) = true
    /\ _sift (window st)
       = Some (queue w
               ++ [ VArr [VStr "_setAccount"; VStr "SNIPPET_KEY"];
                    VArr [VStr "_setUserId"; VStr "network_name:userId"];
                    VArr [VStr "_setSessionId"; VStr "gl.getFEID()"];
                    VArr [VStr "_trackPageview"] ])%list
    /\ requests (trace (window st))
       = (requests (trace w)
          ++ [ (VStr "https://api.sift.com/v205/events",
                json_post
                  (VObj [ ("$type", VStr "$create_account");
                          ("$api_key", VStr "API_KEY");
                          ("$user_id", VStr "network_name:userId");
                          ("$session_id", VStr "gl.getFEID()");
                          ("$browser",
                            VObj [ ("$user_agent", VStr (userAgent nav));
                                   ("$accept_language",
                                     VStr (join "," (languages nav)));
                                   ("$content_language", VStr (language nav)) ]);
                          ("custom", VStr "var_value") ])) ])%list.
Proof.
  unfold bootstrap. rewrite constructor_run.
  rewrite loadSnippet_ready by reflexivity.
  rewrite sendEvent_run. cbv zeta.
  eexists. split; [reflexivity|]. split; [reflexivity|]. split; [reflexivity|].
  cbn [snd window trace logged this]. rewrite !requests_app.
  change (requests (map sift_push (snippet_commands ?c))) with (@nil (value * request)).
  rewrite <- !app_assoc. reflexivity.
Qed.

End Edges.

Lemma payload_keys_witness :
  first_violation st0 (VStr "$login") (VObj [("$type", VStr "x"); ("a", VNum 1)])
  = None
  /\ exists payload,
       sendEvent (VStr "$login") (VObj [("$type", VStr "x"); ("a", VNum 1)]) st0
       = (Normal VUndefined,
          logged st0 (fetch (apiUrl (config (this st0))) (json_post (VObj payload))))
       /\ NoDup (keys payload)
       /\ forall k,
            In k (keys payload)
            <-> k = "$type" \/ In k (keys (eventData (this st0)))
                \/ In k (keys (own_props (VObj [("$type", VStr "x"); ("a", VNum 1)]))).
Proof.
  split; [reflexivity|].
  apply (payload_keys (VStr "$login") (VObj [("$type", VStr "x"); ("a", VNum 1)]) st0).
  reflexivity.
Defined.
